(** * build_package.py: the control-file parser and the command dispatcher

    A shallow embedding of [build_package.py] (the [.dsc] checksum-table
    parser [parse_dsc], [build_binary], [main] and [get_args]) together with
    the Python library routines the script calls ([str.splitlines],
    [str.split], [str.startswith], [os.path.dirname], [os.path.join],
    [argparse]), and the properties of the script that follow from them.

    The script runs unchanged under Python 2.7 (the interpreter its
    [#!/usr/bin/python] line and its [__future__] import were written for)
    and under Python 3.  The two differ where the script can observe it:
    which characters [splitlines] and [split] treat as separators, and
    whether [argparse] demands a sub-command.  The interpreter is therefore a
    parameter [py] of the embedding.

    Text is [string]: a sequence of 8-bit characters.  This is exactly a
    Python 2 [str]; for Python 3 it is a [str] whose code points are below
    256. *)

From Stdlib Require Import String Ascii List Bool Arith ZArith Lia.
Import ListNotations.
Local Open Scope string_scope.
Local Open Scope list_scope.

(** ** The interpreter *)

Inductive python : Type := Python2 | Python3.

(** ** Exceptions and results *)

(** The exceptions the script can end with.  [FileNotFoundError] is raised
    by [open] on a path with no file (in Python 2 it is an [IOError] whose
    errno is ENOENT); [IndexError] by [data[2]]; [TypeError] by
    [SourceFile( *data)] on a wrong number of fields; [SystemExit] by
    [argparse] (status 2 after a usage message, status 0 after [--help]). *)
Inductive exn : Type :=
| FileNotFoundError
| IndexError
| TypeError
| SystemExit (status : Z).

Inductive result (A : Type) : Type :=
| Ok (a : A)
| Raise (e : exn).
Arguments Ok {A} a.
Arguments Raise {A} e.

Definition bind {A B : Type} (r : result A) (k : A -> result B) : result B :=
  match r with
  | Ok a => k a
  | Raise e => Raise e
  end.

Notation "x <- r ;; k" := (bind r (fun x => k))
  (at level 61, r at next level, right associativity).

(** ** Characters and the [str] methods the parser uses *)

Definition code_in (codes : list nat) (c : ascii) : bool :=
  existsb (Nat.eqb (nat_of_ascii c)) codes.

Definition LF : ascii := ascii_of_nat 10.
Definition CR : ascii := ascii_of_nat 13.
Definition TAB : ascii := ascii_of_nat 9.

Section Text.

Variable py : python.

(** The line boundaries of [splitlines]: for a Python 2 byte string only
    LF and CR; for a Python 3 string also VT, FF, FS, GS, RS and NEL. *)
Definition is_linebreak (c : ascii) : bool :=
  match py with
  | Python2 => code_in [10; 13] c
  | Python3 => code_in [10; 11; 12; 13; 28; 29; 30; 133] c
  end.

(** The separators of [split()]: C's [isspace] for a Python 2 byte string,
    [str.isspace] for a Python 3 string. *)
Definition isspace (c : ascii) : bool :=
  match py with
  | Python2 => code_in [9; 10; 11; 12; 13; 32] c
  | Python3 => code_in [9; 10; 11; 12; 13; 28; 29; 30; 31; 32; 133; 160] c
  end.

(** [s.splitlines()]: the lines of [s] without their terminators; CR LF is
    one terminator; a terminator at the very end opens no further line. *)
Fixpoint splitlines (s : string) : list string :=
  match s with
  | EmptyString => []
  | String c rest =>
      if is_linebreak c then
        EmptyString ::
          match rest with
          | String d rest' =>
              if Ascii.eqb c CR && Ascii.eqb d LF
              then splitlines rest' else splitlines rest
          | EmptyString => []
          end
      else
        match splitlines rest with
        | [] => [String c EmptyString]
        | l :: ls => String c l :: ls
        end
  end.

(** [s.split()]: the maximal runs of non-whitespace characters. *)
Fixpoint split (s : string) : list string :=
  match s with
  | EmptyString => []
  | String c rest =>
      if isspace c then split rest
      else
        match rest with
        | EmptyString => [String c EmptyString]
        | String d _ =>
            if isspace d then String c EmptyString :: split rest
            else
              match split rest with
              | [] => [String c EmptyString]
              | t :: ts => String c t :: ts
              end
        end
  end.

End Text.

(** [s.startswith(p)] *)
Definition startswith (s p : string) : bool := String.prefix p s.

(** ** [os.path] on a POSIX system *)

Definition is_sep (c : ascii) : bool := Ascii.eqb c "/".

Fixpoint has_sep (p : string) : bool :=
  match p with
  | EmptyString => false
  | String c r => is_sep c || has_sep r
  end.

(** [p[:p.rfind('/') + 1]] *)
Fixpoint upto_last_sep (p : string) : string :=
  match p with
  | EmptyString => EmptyString
  | String c r => if has_sep p then String c (upto_last_sep r) else EmptyString
  end.

(** [os.path.basename(p)], that is [p[p.rfind('/') + 1:]] *)
Fixpoint basename (p : string) : string :=
  match p with
  | EmptyString => EmptyString
  | String c r => if has_sep p then basename r else p
  end.

(** [head == '/' * len(head)] *)
Fixpoint all_sep (p : string) : bool :=
  match p with
  | EmptyString => true
  | String c r => is_sep c && all_sep r
  end.

(** [head.rstrip('/')] *)
Fixpoint rstrip_sep (p : string) : string :=
  match p with
  | EmptyString => EmptyString
  | String c r =>
      match rstrip_sep r with
      | EmptyString => if is_sep c then EmptyString else String c EmptyString
      | r' => String c r'
      end
  end.

(** [os.path.dirname(p)] *)
Definition dirname (p : string) : string :=
  let head := upto_last_sep p in
  if negb (String.eqb head EmptyString) && negb (all_sep head)
  then rstrip_sep head
  else head.

(** [a.endswith('/')] *)
Fixpoint endswith_sep (a : string) : bool :=
  match a with
  | EmptyString => false
  | String c EmptyString => is_sep c
  | String _ r => endswith_sep r
  end.

(** [os.path.join(a, b)] *)
Definition join (a b : string) : string :=
  if startswith b "/" then b
  else if String.eqb a EmptyString || endswith_sep a then a ++ b
  else a ++ "/" ++ b.

(** ** The data model *)

(** The values a field of the named tuple can hold.  Python does not type
    the fields; the parser only ever stores [str] objects in them. *)
Inductive pyobj : Type :=
| PyStr (s : string)
| PyInt (n : Z).

(** [SourceFile = namedtuple('SourceFile', ['sha256', 'size', 'name', 'path'])] *)
Record SourceFile : Type := mkSourceFile {
  sha256 : pyobj;
  size : pyobj;
  name : pyobj;
  path : pyobj
}.

(** [SourceFile( *data)]: exactly four positional arguments, a [TypeError]
    otherwise. *)
Definition SourceFile_of (data : list string) : result SourceFile :=
  match data with
  | [a; b; c; d] => Ok (mkSourceFile (PyStr a) (PyStr b) (PyStr c) (PyStr d))
  | _ => Raise TypeError
  end.

(** ** The file system *)

(** What [open(path).read()] yields: the text of the file, or nothing when
    no file is there. *)
Definition filesystem : Type := string -> option string.

Definition read_file (fs : filesystem) (p : string) : result string :=
  match fs p with
  | Some content => Ok content
  | None => Raise FileNotFoundError
  end.

(** ** [parse_dsc] *)

Definition header : string := "Checksums-Sha256:".

Section Parser.

Variable py : python.

(** The body of the first branch of the loop:
    [data = line.split(); data.append(os.path.join(there, data[2]));
     SourceFile( *data)]. *)
Definition row (there line : string) : result SourceFile :=
  let data := split py line in
  match nth_error data 2 with
  | None => Raise IndexError
  | Some n => SourceFile_of (data ++ [join there n])
  end.

(** The [for] loop over the lines, from the state [(found, files)]. *)
Fixpoint scan (there : string) (found : bool) (files : list SourceFile)
         (lines : list string) : result (list SourceFile) :=
  match lines with
  | [] => Ok files
  | line :: rest =>
      if found && startswith line " " then
        f <- row there line ;;
        let files := files ++ [f] in
        let found :=
          if negb found && startswith line header then true else found in
        scan there found files rest
      else if found then
        Ok files
      else
        let found :=
          if negb found && startswith line header then true else found in
        scan there found files rest
  end.

Definition parse_dsc (fs : filesystem) (dsc_path : string) (verbose : bool)
  : result (list SourceFile) :=
  let files := [] in
  content <- read_file fs dsc_path ;;
  let there := dirname dsc_path in
  let found := false in
  scan there found files (splitlines py content).

(** [build_binary] *)
Definition build_binary (fs : filesystem) (dsc_path location : string)
           (verbose : bool) : result Z :=
  source_files <- parse_dsc fs dsc_path verbose ;;
  Ok 0%Z.

End Parser.

(** ** [get_args] and [main] *)

(** The result of [parser.parse_args]: without a sub-command only
    [verbose] and [command = None] are set; the [binary] sub-parser adds
    [dsc] and [location]. *)
Inductive Namespace : Type :=
| Namespace_none (verbose : bool)
| Namespace_binary (verbose : bool) (dsc location : string).

Definition command (args : Namespace) : option string :=
  match args with
  | Namespace_none _ => None
  | Namespace_binary _ _ _ => Some "binary"
  end.

(** [argparse] first classifies every argument string: a positional
    argument (['A'] in its pattern) or an option (['O']).  An empty string
    and a string that does not start with [-] are positional, and a string
    equal to a registered option string is that option.  Any other string
    that starts with [-] (an abbreviation such as [--verb], a cluster such as
    [-vv], [--verbose=x], [--], [-1]) goes through further rules of
    [argparse] that are left out here: [classify] gives nothing for it. *)
Inductive arg_class : Type :=
| A (word : string)
| O_verbose
| O_help.

Definition classify (a : string) : option arg_class :=
  if String.eqb a "-v" || String.eqb a "--verbose" then Some O_verbose
  else if String.eqb a "-h" || String.eqb a "--help" then Some O_help
  else if startswith a "-" then None
  else Some (A a).

Fixpoint classify_all (args : list string) : option (list arg_class) :=
  match args with
  | [] => Some []
  | a :: rest =>
      match classify a, classify_all rest with
      | Some c, Some cs => Some (c :: cs)
      | _, _ => None
      end
  end.

Definition is_help (c : arg_class) : bool :=
  match c with O_help => true | _ => false end.

(** The sub-parser of [binary], on the arguments after the word [binary].
    It knows [-h]/[--help] and the positionals [dsc] and [location];
    [-v]/[--verbose] is not an option of the sub-parser and ends in the
    unrecognized arguments.  The help action exits as soon as it is
    reached; missing and surplus arguments are reported after the scan. *)
Definition parse_binary (verbose : bool) (args : list arg_class)
  : result Namespace :=
  if existsb is_help args then Raise (SystemExit 0)
  else
    match args with
    | [A dsc; A location] => Ok (Namespace_binary verbose dsc location)
    | _ => Raise (SystemExit 2)
    end.

(** The top-level parser.  Options are taken from left to right up to the
    first positional argument, which must name a sub-command and hands the
    rest of the line to the sub-parser.  With no positional argument left,
    Python 2.7 reports [too few arguments]; Python 3 treats the sub-command
    as optional ([add_subparsers] is not given [required=True]) and returns
    the namespace with [command = None]. *)
Fixpoint parse_top (py : python) (verbose : bool) (args : list arg_class)
  : result Namespace :=
  match args with
  | [] =>
      match py with
      | Python2 => Raise (SystemExit 2)
      | Python3 => Ok (Namespace_none verbose)
      end
  | O_verbose :: rest => parse_top py true rest
  | O_help :: _ => Raise (SystemExit 0)
  | A word :: rest =>
      if String.eqb word "binary" then parse_binary verbose rest
      else Raise (SystemExit 2)
  end.

(** [get_args(argv)]: [parser.parse_args(argv[1:])]. *)
Definition get_args (py : python) (argv : list string)
  : option (result Namespace) :=
  option_map (parse_top py false) (classify_all (tl argv)).

(** [main(argv)]: [exitcode] starts at 0 and is replaced only when
    [args.command == 'binary']. *)
Definition main (py : python) (fs : filesystem) (argv : list string)
  : option (result Z) :=
  let exitcode := 0%Z in
  option_map
    (fun parsed =>
       args <- parsed ;;
       match args with
       | Namespace_binary verbose dsc location =>
           build_binary py fs dsc location verbose
       | Namespace_none _ => Ok exitcode
       end)
    (get_args py argv).

(** [sys.exit(main(sys.argv))]: the exit status of the process.  An
    uncaught exception other than [SystemExit] prints its traceback and
    ends the process with status 1. *)
Definition exit_status (r : result Z) : Z :=
  match r with
  | Ok code => code
  | Raise (SystemExit status) => status
  | Raise _ => 1%Z
  end.

Definition script (py : python) (fs : filesystem) (argv : list string)
  : option Z :=
  option_map exit_status (main py fs argv).

(** ** Vocabulary of the properties *)

(** A line the loop takes for a data row: it starts with a space. *)
Definition indented (line : string) : bool := startswith line " ".

(** A line that starts with any whitespace character. *)
Definition leading_whitespace (py : python) (line : string) : bool :=
  match line with
  | EmptyString => false
  | String c _ => isspace py c
  end.

Definition is_header (line : string) : bool := startswith line header.

(** The section is over: the file ends, or the next line is not indented. *)
Definition section_ends (rest : list string) : Prop :=
  match rest with
  | [] => True
  | line :: _ => indented line = false
  end.

(** The entries of a run of data rows, in order; the first row that fails
    decides the exception. *)
Fixpoint entries (py : python) (there : string) (rows : list string)
  : result (list SourceFile) :=
  match rows with
  | [] => Ok []
  | r :: rs =>
      f <- row py there r ;;
      fs <- entries py there rs ;;
      Ok (f :: fs)
  end.

(** The failures of a malformed row. *)
Definition is_FormatError (e : exn) : bool :=
  match e with
  | IndexError | TypeError => true
  | _ => false
  end.

(** A row and the entry made from it agree on the three tokens. *)
Definition entry_of_row (py : python) (r : string) (e : SourceFile) : Prop :=
  exists a b c,
    split py r = [a; b; c] /\
    sha256 e = PyStr a /\ size e = PyStr b /\ name e = PyStr c.

(** [size] holds a non-negative integer. *)
Definition size_is_natural (e : SourceFile) : Prop :=
  exists n, size e = PyInt n /\ (0 <= n)%Z.

(** Text of a file from its lines, each ended by LF. *)
Fixpoint text_of (lines : list string) : string :=
  match lines with
  | [] => EmptyString
  | l :: ls => l ++ String LF (text_of ls)
  end.

(** A file system with one file. *)
Definition one_file (p content : string) : filesystem :=
  fun q => if String.eqb q p then Some content else None.

Definition example_dsc : string :=
  text_of ["Checksums-Sha256:";
           " abcdef0123456789 100 foo.tar.gz";
           " fedcba9876543210 200 foo.dsc";
           "Other-Field: x"].

Definition example_fs : filesystem := one_file "/tmp/pkg/foo.dsc" example_dsc.

(** A table whose file names are not base names. *)
Definition nested_dsc : string :=
  text_of ["Checksums-Sha256:";
           " 0a 1 sub/foo.tar.gz";
           " 0b 2 /abs/foo.dsc"].

(** A table whose first row is indented with a tab. *)
Definition tab_row : string := String TAB "0a 1 foo.tar.gz".

Definition tab_dsc : string :=
  text_of ["Checksums-Sha256:"; tab_row; " 0b 2 foo.dsc"].

(** A table whose second row is indented with a tab. *)
Definition mixed_dsc : string :=
  text_of ["Checksums-Sha256:"; " 0a 1 foo.tar.gz";
           String TAB "0b 2 foo.dsc"; " 0c 3 foo.diff.gz"].

(** A table with a row that lacks the file name. *)
Definition short_dsc : string :=
  text_of ["Checksums-Sha256:"; " 0a 1 foo.tar.gz"; " abc123 1024"].

(** Two tables in one file. *)
Definition twice_dsc : string :=
  text_of ["Format: 3.0";
           "Checksums-Sha256:"; " 0a 1 foo.tar.gz";
           "Checksums-Sha256:"; " 0b 2 foo.dsc"].

(** No character of [s] is whitespace. *)
Fixpoint no_space (py : python) (s : string) : bool :=
  match s with
  | EmptyString => true
  | String c r => negb (isspace py c) && no_space py r
  end.

(** Every character of [s] is whitespace. *)
Fixpoint only_space (py : python) (s : string) : bool :=
  match s with
  | EmptyString => true
  | String c r => isspace py c && only_space py r
  end.

(** What [split()] hands out: a non-empty text without whitespace. *)
Definition is_token (py : python) (s : string) : Prop :=
  s <> EmptyString /\ no_space py s = true.

(** An argument that [argparse] takes for a positional one. *)
Definition is_word (a : string) : Prop := classify a = Some (A a).

(** A table with a blank but indented line. *)
Definition blank_row_dsc : string :=
  text_of ["Checksums-Sha256:"; " 0a 1 foo.tar.gz"; "  "; " 0b 2 foo.dsc"].

(** A fact that holds under either interpreter. *)
Definition both (P : python -> Prop) : Prop := P Python2 /\ P Python3.

(** * Properties *)

(** ** Results *)

Lemma bind_Ok_inv {A B : Type} (r : result A) (k : A -> result B) (b : B) :
  bind r k = Ok b -> exists a, r = Ok a /\ k a = Ok b.
Proof.
  destruct r as [a | e]; simpl; intros H.
  - exists a. split; [reflexivity | exact H].
  - discriminate H.
Qed.

(** ** Rows *)

Section RowFacts.

Variable py : python.
Variable there : string.

Lemma row_three (line a b c : string) :
  split py line = [a; b; c] ->
  row py there line =
    Ok (mkSourceFile (PyStr a) (PyStr b) (PyStr c) (PyStr (join there c))).
Proof.
  intros H. unfold row. rewrite H. reflexivity.
Qed.

Lemma row_Ok_inv (line : string) (e : SourceFile) :
  row py there line = Ok e ->
  exists a b c,
    split py line = [a; b; c] /\
    e = mkSourceFile (PyStr a) (PyStr b) (PyStr c) (PyStr (join there c)).
Proof.
  unfold row.
  destruct (split py line) as [| a [| b [| c [| d rest]]]]; simpl;
    try discriminate.
  - intros H. injection H as <-. exists a, b, c. split; reflexivity.
  - destruct rest; discriminate.
Qed.

Lemma row_too_few (line : string) :
  length (split py line) < 3 -> row py there line = Raise IndexError.
Proof.
  unfold row.
  destruct (split py line) as [| a [| b [| c rest]]]; simpl; intros H;
    try reflexivity.
  lia.
Qed.

Lemma row_too_many (line : string) :
  3 < length (split py line) -> row py there line = Raise TypeError.
Proof.
  unfold row.
  destruct (split py line) as [| a [| b [| c [| d rest]]]]; simpl; intros H;
    try lia.
  destruct rest; reflexivity.
Qed.

Lemma row_Raise_FormatError (line : string) (e : exn) :
  row py there line = Raise e -> is_FormatError e = true.
Proof.
  unfold row.
  destruct (split py line) as [| a [| b [| c [| d rest]]]]; simpl; intros H;
    try (injection H as <-; reflexivity).
  - discriminate H.
  - destruct rest; injection H as <-; reflexivity.
Qed.

Lemma row_Ok_length (line : string) (e : SourceFile) :
  row py there line = Ok e -> length (split py line) = 3.
Proof.
  intros H. apply row_Ok_inv in H. destruct H as (a & b & c & Hs & _).
  rewrite Hs. reflexivity.
Qed.

(** ** Runs of rows *)

Lemma entries_Ok_rows (rows : list string) (es : list SourceFile) :
  entries py there rows = Ok es ->
  Forall2 (fun r e => row py there r = Ok e) rows es.
Proof.
  revert es. induction rows as [| r rs IH]; simpl; intros es H.
  - injection H as <-. constructor.
  - apply bind_Ok_inv in H. destruct H as (f & Hf & H).
    apply bind_Ok_inv in H. destruct H as (fs & Hfs & H).
    injection H as <-. constructor; [exact Hf | apply IH; exact Hfs].
Qed.

Lemma entries_Raise_FormatError (rows : list string) (e : exn) :
  entries py there rows = Raise e -> is_FormatError e = true.
Proof.
  induction rows as [| r rs IH]; simpl; intros H.
  - discriminate H.
  - destruct (row py there r) as [f | e'] eqn:Hr; simpl in H.
    + destruct (entries py there rs) as [fs | e''] eqn:Hrs; simpl in H.
      * discriminate H.
      * injection H as <-. apply IH. reflexivity.
    + injection H as <-. apply (row_Raise_FormatError r). exact Hr.
Qed.

Lemma entries_wellformed (rows : list string) :
  Forall (fun r => length (split py r) = 3) rows ->
  exists es,
    entries py there rows = Ok es /\ Forall2 (entry_of_row py) rows es.
Proof.
  induction 1 as [| r rs Hr _ IH]; simpl.
  - exists []. split; [reflexivity | constructor].
  - destruct IH as (es & Hes & Hall).
    destruct (split py r) as [| a [| b [| c [| d rest]]]] eqn:Hs;
      try discriminate Hr.
    rewrite (row_three r a b c Hs), Hes. simpl.
    eexists. split; [reflexivity |].
    constructor; [| exact Hall].
    exists a, b, c. simpl. rewrite Hs. repeat split; reflexivity.
Qed.

(** ** The loop *)

Lemma scan_before_header (pre rest : list string) (files : list SourceFile) :
  Forall (fun l => is_header l = false) pre ->
  scan py there false files (pre ++ rest) = scan py there false files rest.
Proof.
  induction 1 as [| l pre Hl _ IH]; simpl.
  - reflexivity.
  - unfold is_header in Hl. rewrite Hl. exact IH.
Qed.

Lemma scan_at_header (hdr : string) (rest : list string)
      (files : list SourceFile) :
  is_header hdr = true ->
  scan py there false files (hdr :: rest) = scan py there true files rest.
Proof.
  intros H. unfold is_header in H. simpl. rewrite H. reflexivity.
Qed.

Lemma scan_rows (rows rest : list string) (files : list SourceFile) :
  Forall (fun r => indented r = true) rows ->
  scan py there true files (rows ++ rest) =
    (es <- entries py there rows ;; scan py there true (files ++ es) rest).
Proof.
  intros H. revert files. induction H as [| r rs Hr _ IH]; intros files; simpl.
  - rewrite app_nil_r. reflexivity.
  - unfold indented in Hr. rewrite Hr.
    destruct (row py there r) as [f | e]; simpl; [| reflexivity].
    rewrite IH.
    destruct (entries py there rs) as [fs | e]; simpl; [| reflexivity].
    rewrite <- app_assoc. reflexivity.
Qed.

Lemma scan_section_end (rest : list string) (files : list SourceFile) :
  section_ends rest -> scan py there true files rest = Ok files.
Proof.
  destruct rest as [| t rest]; simpl; intros H.
  - reflexivity.
  - unfold indented in H. rewrite H. reflexivity.
Qed.

(** The loop on a file laid out as: lines before the header, the header,
    indented rows, and then the end of the section. *)
Lemma scan_layout (pre : list string) (hdr : string) (rows rest : list string) :
  Forall (fun l => is_header l = false) pre ->
  is_header hdr = true ->
  Forall (fun r => indented r = true) rows ->
  section_ends rest ->
  scan py there false [] (pre ++ hdr :: rows ++ rest) = entries py there rows.
Proof.
  intros Hpre Hhdr Hrows Hend.
  rewrite (scan_before_header _ _ _ Hpre), (scan_at_header _ _ _ Hhdr),
    (scan_rows _ _ _ Hrows).
  destruct (entries py there rows) as [es | e]; simpl; [| reflexivity].
  apply scan_section_end. exact Hend.
Qed.

(** Whatever the loop returns beyond what it started with was made by [row]
    from one of the lines. *)
Lemma scan_Ok_from_rows (lines : list string) (found : bool)
      (files out : list SourceFile) :
  scan py there found files lines = Ok out ->
  exists news,
    out = files ++ news /\
    Forall (fun e => exists line, In line lines /\ row py there line = Ok e)
           news.
Proof.
  revert found files.
  induction lines as [| l ls IH]; intros found files H; simpl in H.
  - injection H as <-. exists []. rewrite app_nil_r. split; constructor.
  - destruct (found && startswith l " ") eqn:Hrow.
    + apply bind_Ok_inv in H. destruct H as (f & Hf & H).
      apply IH in H. destruct H as (news & -> & Hall).
      exists (f :: news). rewrite <- app_assoc. split; [reflexivity |].
      constructor.
      * exists l. split; [left; reflexivity | exact Hf].
      * eapply Forall_impl; [| exact Hall].
        intros e (line & Hin & He). exists line. split; [right |]; assumption.
    + destruct found.
      * injection H as <-. exists []. rewrite app_nil_r. split; constructor.
      * apply IH in H. destruct H as (news & -> & Hall).
        exists news. split; [reflexivity |].
        eapply Forall_impl; [| exact Hall].
        intros e (line & Hin & He). exists line. split; [right |]; assumption.
Qed.

End RowFacts.

(** ** Paths *)

Lemma has_sep_app (a b : string) :
  has_sep (a ++ b)%string = has_sep a || has_sep b.
Proof.
  induction a as [| c a IH]; simpl.
  - reflexivity.
  - rewrite IH. apply orb_assoc.
Qed.

Lemma basename_no_sep (p : string) : has_sep p = false -> basename p = p.
Proof.
  destruct p as [| c r]; simpl; intros H.
  - reflexivity.
  - rewrite H. reflexivity.
Qed.

Lemma basename_length (p : string) :
  String.length (basename p) <= String.length p.
Proof.
  induction p as [| c r IH]; simpl.
  - apply Nat.le_refl.
  - destruct (is_sep c || has_sep r); simpl; lia.
Qed.

Lemma basename_shorter (p : string) :
  has_sep p = true -> String.length (basename p) < String.length p.
Proof.
  destruct p as [| c r]; simpl; intros H.
  - discriminate H.
  - rewrite H. pose proof (basename_length r). lia.
Qed.

Lemma basename_fixed_iff (p : string) :
  basename p = p <-> has_sep p = false.
Proof.
  split.
  - intros H. destruct (has_sep p) eqn:Hs; [| reflexivity].
    apply basename_shorter in Hs. rewrite H in Hs. lia.
  - apply basename_no_sep.
Qed.

Lemma basename_app (a b : string) :
  basename (a ++ b)%string = if has_sep b then basename b else (basename a ++ b)%string.
Proof.
  induction a as [| c a IH].
  - simpl. destruct (has_sep b) eqn:Hb; [reflexivity |].
    apply basename_no_sep. exact Hb.
  - change ((String c a ++ b)%string) with (String c (a ++ b)).
    cbn [basename has_sep]. rewrite has_sep_app, IH.
    destruct (has_sep b); [rewrite !orb_true_r; reflexivity |].
    rewrite orb_false_r.
    destruct (is_sep c || has_sep a); reflexivity.
Qed.

Lemma basename_cons (c : ascii) (r : string) :
  basename (String c r) =
    if is_sep c || has_sep r then basename r else String c r.
Proof. reflexivity. Qed.

Lemma endswith_sep_basename (a : string) :
  endswith_sep a = true -> has_sep a = true /\ basename a = EmptyString.
Proof.
  induction a as [| c r IH]; intros H.
  - discriminate H.
  - rewrite basename_cons. cbn [has_sep].
    destruct r as [| d r'].
    + simpl in H. rewrite H. split; reflexivity.
    + destruct (IH H) as [Hs Hb].
      rewrite Hs, orb_true_r. split; [reflexivity | exact Hb].
Qed.

(** The base name of a joined path is that of its second component. *)
Lemma basename_join (a b : string) : basename (join a b) = basename b.
Proof.
  unfold join.
  destruct (startswith b "/"); [reflexivity |].
  destruct (String.eqb a EmptyString || endswith_sep a) eqn:Ha.
  - rewrite basename_app.
    destruct (has_sep b) eqn:Hb; [reflexivity |].
    rewrite (basename_no_sep b Hb).
    apply orb_true_iff in Ha. destruct Ha as [Ha | Ha].
    + apply String.eqb_eq in Ha. subst a. reflexivity.
    + apply endswith_sep_basename in Ha. destruct Ha as [_ ->]. reflexivity.
  - rewrite basename_app.
    change (("/" ++ b)%string) with (String "/" b).
    cbn [has_sep basename is_sep]. reflexivity.
Qed.

(** ** [parse_dsc] *)

Lemma parse_dsc_read (py : python) (fs : filesystem) (p : string) (v : bool)
      (content : string) :
  fs p = Some content ->
  parse_dsc py fs p v = scan py (dirname p) false [] (splitlines py content).
Proof.
  intros H. unfold parse_dsc, read_file. rewrite H. reflexivity.
Qed.

Lemma parse_dsc_missing (py : python) (fs : filesystem) (p : string)
      (v : bool) :
  fs p = None -> parse_dsc py fs p v = Raise FileNotFoundError.
Proof.
  intros H. unfold parse_dsc, read_file. rewrite H. reflexivity.
Qed.

(** Every entry of a returned list was made by [row] from a line of the
    file. *)
Lemma parse_dsc_Ok_rows (py : python) (fs : filesystem) (p : string)
      (v : bool) (files : list SourceFile) :
  parse_dsc py fs p v = Ok files ->
  exists content,
    fs p = Some content /\
    Forall (fun e => exists line,
                In line (splitlines py content) /\
                row py (dirname p) line = Ok e) files.
Proof.
  intros H. destruct (fs p) as [content |] eqn:Hfs.
  - rewrite (parse_dsc_read py fs p v content Hfs) in H.
    apply scan_Ok_from_rows in H. destruct H as (news & -> & Hall).
    exists content. split; [reflexivity | exact Hall].
  - rewrite (parse_dsc_missing py fs p v Hfs) in H. discriminate H.
Qed.

Lemma parse_dsc_entry (py : python) (fs : filesystem) (p : string) (v : bool)
      (files : list SourceFile) (e : SourceFile) :
  parse_dsc py fs p v = Ok files ->
  In e files ->
  exists content line a b c,
    fs p = Some content /\
    In line (splitlines py content) /\
    split py line = [a; b; c] /\
    e = mkSourceFile (PyStr a) (PyStr b) (PyStr c)
                     (PyStr (join (dirname p) c)).
Proof.
  intros H Hin. apply parse_dsc_Ok_rows in H.
  destruct H as (content & Hfs & Hall).
  rewrite Forall_forall in Hall. destruct (Hall e Hin) as (line & Hl & Hrow).
  apply row_Ok_inv in Hrow. destruct Hrow as (a & b & c & Hs & He).
  exists content, line, a, b, c. repeat split; assumption.
Qed.

Lemma parse_dsc_layout (py : python) (fs : filesystem) (p : string) (v : bool)
      (content : string) (pre : list string) (hdr : string)
      (rows rest : list string) :
  fs p = Some content ->
  splitlines py content = pre ++ hdr :: rows ++ rest ->
  Forall (fun l => is_header l = false) pre ->
  is_header hdr = true ->
  Forall (fun r => indented r = true) rows ->
  section_ends rest ->
  parse_dsc py fs p v = entries py (dirname p) rows.
Proof.
  intros Hfs Hlines Hpre Hhdr Hrows Hend.
  rewrite (parse_dsc_read py fs p v content Hfs), Hlines.
  apply scan_layout; assumption.
Qed.

Lemma header_not_indented (line : string) :
  is_header line = true -> indented line = false.
Proof.
  unfold is_header, indented, startswith, header.
  destruct line as [| c r]; intros H.
  - reflexivity.
  - destruct c as [[] [] [] [] [] [] [] []];
      try reflexivity; cbn in H; discriminate H.
Qed.

(** ** The checksum table *)

(** C1. When the [Checksums-Sha256] section of the file holds [n]
    well-formed data rows (indented lines of exactly three tokens) and then
    ends, [parse_dsc] returns exactly [n] entries, in the order of the rows,
    and the [sha256], [size] and [name] of each entry are the first, second
    and third token of its row. *)
Theorem parse_dsc_wellformed_section
        (py : python) (fs : filesystem) (p : string) (v : bool)
        (content : string) (pre : list string) (hdr : string)
        (rows rest : list string) :
  fs p = Some content ->
  splitlines py content = pre ++ hdr :: rows ++ rest ->
  Forall (fun l => is_header l = false) pre ->
  is_header hdr = true ->
  Forall (fun r => indented r = true /\ length (split py r) = 3) rows ->
  section_ends rest ->
  exists files,
    parse_dsc py fs p v = Ok files /\
    length files = length rows /\
    Forall2 (entry_of_row py) rows files.
Proof.
  intros Hfs Hlines Hpre Hhdr Hrows Hend.
  assert (Hind : Forall (fun r => indented r = true) rows).
  { eapply Forall_impl; [| exact Hrows]. intros r [Hr _]. exact Hr. }
  assert (Hwf : Forall (fun r => length (split py r) = 3) rows).
  { eapply Forall_impl; [| exact Hrows]. intros r [_ Hr]. exact Hr. }
  destruct (entries_wellformed py (dirname p) rows Hwf) as (files & Hes & Hall).
  exists files. split; [| split].
  - rewrite (parse_dsc_layout py fs p v content pre hdr rows rest); assumption.
  - symmetry. eapply Forall2_length. exact Hall.
  - exact Hall.
Qed.

Lemma parse_dsc_wellformed_section_witness :
  exists files,
    parse_dsc Python3 example_fs "/tmp/pkg/foo.dsc" false = Ok files /\
    length files = 2 /\
    Forall2 (entry_of_row Python3)
            [" abcdef0123456789 100 foo.tar.gz";
             " fedcba9876543210 200 foo.dsc"] files.
Proof.
  apply (parse_dsc_wellformed_section
           Python3 example_fs "/tmp/pkg/foo.dsc" false example_dsc
           [] "Checksums-Sha256:"
           [" abcdef0123456789 100 foo.tar.gz";
            " fedcba9876543210 200 foo.dsc"]
           ["Other-Field: x"]).
  - reflexivity.
  - reflexivity.
  - constructor.
  - reflexivity.
  - repeat constructor.
  - reflexivity.
Defined.

(** C2. When the section holds a malformed data row (an indented line that
    does not split into exactly three tokens), [parse_dsc] fails with the
    exception of a malformed row ([IndexError] from [data[2]] or [TypeError]
    from [SourceFile( *data)]) and returns no list, not even of the rows
    before it. *)
Theorem parse_dsc_malformed_row_raises
        (py : python) (fs : filesystem) (p : string) (v : bool)
        (content : string) (pre : list string) (hdr : string)
        (rows : list string) (bad : string) (rest : list string) :
  fs p = Some content ->
  splitlines py content = pre ++ hdr :: rows ++ bad :: rest ->
  Forall (fun l => is_header l = false) pre ->
  is_header hdr = true ->
  Forall (fun r => indented r = true) rows ->
  indented bad = true ->
  length (split py bad) <> 3 ->
  exists e, parse_dsc py fs p v = Raise e /\ is_FormatError e = true.
Proof.
  intros Hfs Hlines Hpre Hhdr Hrows Hbad Hlen.
  assert (Hall : Forall (fun r => indented r = true) (rows ++ [bad])).
  { apply Forall_app. split; [exact Hrows | repeat constructor; exact Hbad]. }
  rewrite (parse_dsc_read py fs p v content Hfs), Hlines.
  change (bad :: rest) with ([bad] ++ rest). rewrite app_assoc.
  rewrite (scan_before_header _ _ _ _ _ Hpre), (scan_at_header _ _ _ _ _ Hhdr),
    (scan_rows _ _ _ _ _ Hall).
  destruct (entries py (dirname p) (rows ++ [bad])) as [es | e] eqn:Hes.
  - exfalso. apply entries_Ok_rows in Hes.
    apply Forall2_app_inv_l in Hes.
    destruct Hes as (es1 & es2 & _ & Hb & _).
    inversion Hb as [| ? e ? ? He _]; subst.
    apply Hlen. eapply row_Ok_length. exact He.
  - exists e. split; [reflexivity |].
    eapply entries_Raise_FormatError. exact Hes.
Qed.

Lemma parse_dsc_malformed_row_raises_witness :
  exists e,
    parse_dsc Python3 (one_file "short.dsc" short_dsc) "short.dsc" false
      = Raise e /\
    is_FormatError e = true.
Proof.
  apply (parse_dsc_malformed_row_raises
           Python3 (one_file "short.dsc" short_dsc) "short.dsc" false
           short_dsc [] "Checksums-Sha256:" [" 0a 1 foo.tar.gz"]
           " abc123 1024" []).
  - reflexivity.
  - reflexivity.
  - constructor.
  - reflexivity.
  - repeat constructor.
  - reflexivity.
  - simpl. lia.
Defined.

(** C3. When no line of the file starts the [Checksums-Sha256] section,
    [parse_dsc] returns the empty list and raises nothing. *)
Theorem parse_dsc_no_section
        (py : python) (fs : filesystem) (p : string) (v : bool)
        (content : string) :
  fs p = Some content ->
  Forall (fun l => is_header l = false) (splitlines py content) ->
  parse_dsc py fs p v = Ok [].
Proof.
  intros Hfs Hnone.
  rewrite (parse_dsc_read py fs p v content Hfs).
  rewrite <- (app_nil_r (splitlines py content)).
  rewrite (scan_before_header _ _ _ _ _ Hnone). reflexivity.
Qed.

Lemma parse_dsc_no_section_witness :
  parse_dsc Python3
            (one_file "plain.dsc" (text_of ["Format: 3.0"; " 0a 1 foo.tar.gz"]))
            "plain.dsc" false = Ok [].
Proof.
  apply (parse_dsc_no_section
           Python3 _ "plain.dsc" false
           (text_of ["Format: 3.0"; " 0a 1 foo.tar.gz"])).
  - reflexivity.
  - repeat constructor.
Defined.

(** C4. The [path] of every entry that [parse_dsc] returns is the directory
    of the control-file path, as [os.path.dirname] gives it, joined by
    [os.path.join] with the entry's [name]. *)
Theorem parse_dsc_path_is_joined
        (py : python) (fs : filesystem) (p : string) (v : bool)
        (files : list SourceFile) (e : SourceFile) :
  parse_dsc py fs p v = Ok files ->
  In e files ->
  exists n, name e = PyStr n /\ path e = PyStr (join (dirname p) n).
Proof.
  intros H Hin.
  destruct (parse_dsc_entry py fs p v files e H Hin)
    as (content & line & a & b & c & _ & _ & _ & ->).
  exists c. split; reflexivity.
Qed.

Lemma parse_dsc_path_is_joined_witness :
  exists n,
    name (mkSourceFile (PyStr "fedcba9876543210") (PyStr "200")
                       (PyStr "foo.dsc") (PyStr "/tmp/pkg/foo.dsc"))
      = PyStr n /\
    path (mkSourceFile (PyStr "fedcba9876543210") (PyStr "200")
                       (PyStr "foo.dsc") (PyStr "/tmp/pkg/foo.dsc"))
      = PyStr (join (dirname "/tmp/pkg/foo.dsc") n).
Proof.
  eapply (parse_dsc_path_is_joined Python3 example_fs "/tmp/pkg/foo.dsc" false).
  - reflexivity.
  - right. left. reflexivity.
Defined.

(** A file name with a directory part, relative or absolute, gives an entry
    whose [path] has a base name other than the entry's [name]. *)
Lemma path_basename_is_not_name :
  both (fun py =>
    exists e1 e2 p1 p2,
      parse_dsc py (one_file "/tmp/pkg/foo.dsc" nested_dsc)
                "/tmp/pkg/foo.dsc" false = Ok [e1; e2] /\
      name e1 = PyStr "sub/foo.tar.gz" /\ path e1 = PyStr p1 /\
      basename p1 <> "sub/foo.tar.gz" /\
      name e2 = PyStr "/abs/foo.dsc" /\ path e2 = PyStr p2 /\
      basename p2 <> "/abs/foo.dsc").
Proof.
  split; do 4 eexists; repeat split; try reflexivity; discriminate.
Qed.

(** C5, amended.  For every entry that [parse_dsc] returns, the base name of
    [path] is the base name of [name]; it is [name] itself exactly when
    [name] contains no [/]. *)
Theorem parse_dsc_path_basename
        (py : python) (fs : filesystem) (p : string) (v : bool)
        (files : list SourceFile) (e : SourceFile) :
  parse_dsc py fs p v = Ok files ->
  In e files ->
  exists n q,
    name e = PyStr n /\ path e = PyStr q /\
    basename q = basename n /\
    (basename q = n <-> has_sep n = false).
Proof.
  intros H Hin.
  destruct (parse_dsc_entry py fs p v files e H Hin)
    as (content & line & a & b & c & _ & _ & _ & ->).
  exists c, (join (dirname p) c). simpl.
  repeat split; try reflexivity.
  - apply basename_join.
  - rewrite basename_join. apply basename_fixed_iff.
  - rewrite basename_join. apply basename_fixed_iff.
Qed.

Lemma parse_dsc_path_basename_witness :
  exists n q,
    name (mkSourceFile (PyStr "0a") (PyStr "1") (PyStr "sub/foo.tar.gz")
                       (PyStr "/tmp/pkg/sub/foo.tar.gz")) = PyStr n /\
    path (mkSourceFile (PyStr "0a") (PyStr "1") (PyStr "sub/foo.tar.gz")
                       (PyStr "/tmp/pkg/sub/foo.tar.gz")) = PyStr q /\
    basename q = basename n /\
    (basename q = n <-> has_sep n = false).
Proof.
  eapply (parse_dsc_path_basename
            Python3 (one_file "/tmp/pkg/foo.dsc" nested_dsc)
            "/tmp/pkg/foo.dsc" false).
  - reflexivity.
  - left. reflexivity.
Defined.

(** The [size] of the entries of the example file is the text of the
    token, not an integer. *)
Lemma size_is_text_not_integer :
  both (fun py =>
    exists e1 e2,
      parse_dsc py example_fs "/tmp/pkg/foo.dsc" false = Ok [e1; e2] /\
      size e1 = PyStr "100" /\ ~ size_is_natural e1 /\
      size e2 = PyStr "200" /\ ~ size_is_natural e2).
Proof.
  split; do 2 eexists; repeat split; try reflexivity;
    intros (n & Hn & _); discriminate Hn.
Qed.

(** C6, amended.  For every entry that [parse_dsc] returns, [size] is the
    second token of the entry's row, as text: the parser neither converts
    the token to an integer nor checks that it is a decimal number. *)
Theorem parse_dsc_size_is_token
        (py : python) (fs : filesystem) (p : string) (v : bool)
        (files : list SourceFile) (e : SourceFile) :
  parse_dsc py fs p v = Ok files ->
  In e files ->
  exists content line a b c,
    fs p = Some content /\
    In line (splitlines py content) /\
    split py line = [a; b; c] /\
    size e = PyStr b.
Proof.
  intros H Hin.
  destruct (parse_dsc_entry py fs p v files e H Hin)
    as (content & line & a & b & c & Hfs & Hl & Hs & ->).
  exists content, line, a, b, c. repeat split; assumption.
Qed.

Lemma parse_dsc_size_is_token_witness :
  exists content line a b c,
    example_fs "/tmp/pkg/foo.dsc" = Some content /\
    In line (splitlines Python3 content) /\
    split Python3 line = [a; b; c] /\
    size (mkSourceFile (PyStr "abcdef0123456789") (PyStr "100")
                       (PyStr "foo.tar.gz") (PyStr "/tmp/pkg/foo.tar.gz"))
      = PyStr b.
Proof.
  eapply (parse_dsc_size_is_token Python3 example_fs "/tmp/pkg/foo.dsc" false).
  - reflexivity.
  - left. reflexivity.
Defined.

(** A line indented with a tab starts with whitespace and has three tokens,
    yet it is no data row: it ends the section, and the indented row after it
    is not read either. *)
Lemma tab_line_ends_section :
  both (fun py =>
    splitlines py tab_dsc = ["Checksums-Sha256:"; tab_row; " 0b 2 foo.dsc"] /\
    leading_whitespace py tab_row = true /\
    (exists e, row py "" tab_row = Ok e) /\
    parse_dsc py (one_file "tab.dsc" tab_dsc) "tab.dsc" false = Ok []).
Proof.
  split; repeat split; try reflexivity; eexists; reflexivity.
Qed.

(** C9, amended.  Once the header line has been found, every following line
    that starts with a space character is treated as a data row, and the
    first following line that does not start with a space (a tab or any
    other whitespace at its start does not count) ends the section: no later
    line contributes an entry. *)
Theorem parse_dsc_space_rows
        (py : python) (fs : filesystem) (p : string) (v : bool)
        (content : string) (pre : list string) (hdr : string)
        (rows rest : list string) :
  fs p = Some content ->
  splitlines py content = pre ++ hdr :: rows ++ rest ->
  Forall (fun l => is_header l = false) pre ->
  is_header hdr = true ->
  Forall (fun r => indented r = true) rows ->
  section_ends rest ->
  parse_dsc py fs p v = entries py (dirname p) rows.
Proof.
  intros Hfs Hlines Hpre Hhdr Hrows Hend.
  rewrite (parse_dsc_read py fs p v content Hfs), Hlines.
  rewrite (scan_before_header _ _ _ _ _ Hpre), (scan_at_header _ _ _ _ _ Hhdr),
    (scan_rows _ _ _ _ _ Hrows).
  destruct (entries py (dirname p) rows) as [es | e]; simpl; [| reflexivity].
  apply scan_section_end. exact Hend.
Qed.

Lemma parse_dsc_space_rows_witness :
  parse_dsc Python3 (one_file "mixed.dsc" mixed_dsc) "mixed.dsc" false
    = entries Python3 (dirname "mixed.dsc") [" 0a 1 foo.tar.gz"].
Proof.
  apply (parse_dsc_space_rows
           Python3 (one_file "mixed.dsc" mixed_dsc) "mixed.dsc" false
           mixed_dsc [] "Checksums-Sha256:" [" 0a 1 foo.tar.gz"]
           [String TAB "0b 2 foo.dsc"; " 0c 3 foo.diff.gz"]).
  - reflexivity.
  - reflexivity.
  - constructor.
  - reflexivity.
  - repeat constructor.
  - reflexivity.
Defined.

(** C10.  Only the first section is read: when a second
    [Checksums-Sha256:] header comes after the first section has ended, the
    result of [parse_dsc] is that of the rows of the first section alone,
    and the indented rows after the second header contribute nothing. *)
Theorem parse_dsc_first_section_only
        (py : python) (fs : filesystem) (p : string) (v : bool)
        (content : string) (pre : list string) (hdr : string)
        (rows mid : list string) (hdr2 : string) (rows2 tail : list string) :
  fs p = Some content ->
  splitlines py content =
    pre ++ hdr :: rows ++ mid ++ hdr2 :: rows2 ++ tail ->
  Forall (fun l => is_header l = false) pre ->
  is_header hdr = true ->
  Forall (fun r => indented r = true) rows ->
  section_ends mid ->
  is_header hdr2 = true ->
  Forall (fun r => indented r = true) rows2 ->
  parse_dsc py fs p v = entries py (dirname p) rows.
Proof.
  intros Hfs Hlines Hpre Hhdr Hrows Hmid Hhdr2 _.
  apply (parse_dsc_layout py fs p v content pre hdr rows
           (mid ++ hdr2 :: rows2 ++ tail)); try assumption.
  destruct mid as [| t mid'].
  - simpl. apply header_not_indented. exact Hhdr2.
  - exact Hmid.
Qed.

Lemma parse_dsc_first_section_only_witness :
  parse_dsc Python3 (one_file "twice.dsc" twice_dsc) "twice.dsc" false
    = entries Python3 (dirname "twice.dsc") [" 0a 1 foo.tar.gz"].
Proof.
  apply (parse_dsc_first_section_only
           Python3 (one_file "twice.dsc" twice_dsc) "twice.dsc" false
           twice_dsc ["Format: 3.0"] "Checksums-Sha256:"
           [" 0a 1 foo.tar.gz"] [] "Checksums-Sha256:" [" 0b 2 foo.dsc"] []).
  - reflexivity.
  - reflexivity.
  - repeat constructor.
  - reflexivity.
  - repeat constructor.
  - exact I.
  - reflexivity.
  - repeat constructor.
Defined.

(** ** The command line *)

Lemma classify_all_flags (flags rest : list string) :
  Forall (fun a => classify a = Some O_verbose) flags ->
  classify_all (flags ++ rest) =
    option_map (app (map (fun _ => O_verbose) flags)) (classify_all rest).
Proof.
  induction 1 as [| a flags Ha _ IH]; simpl.
  - destruct (classify_all rest); reflexivity.
  - rewrite Ha, IH. destruct (classify_all rest); reflexivity.
Qed.

Lemma parse_top_flags (py : python) (flags : list string)
      (cs : list arg_class) (verbose : bool) :
  parse_top py verbose (map (fun _ => O_verbose) flags ++ cs) =
    parse_top py (match flags with [] => verbose | _ => true end) cs.
Proof.
  revert verbose. induction flags as [| a flags IH]; intros verbose; simpl.
  - reflexivity.
  - rewrite IH. destruct flags; reflexivity.
Qed.

Lemma get_args_flags (py : python) (prog : string) (flags rest : list string)
      (cs : list arg_class) :
  Forall (fun a => classify a = Some O_verbose) flags ->
  classify_all rest = Some cs ->
  get_args py (prog :: flags ++ rest) =
    Some (parse_top py (match flags with [] => false | _ => true end) cs).
Proof.
  intros Hflags Hrest. unfold get_args. simpl.
  rewrite (classify_all_flags flags rest Hflags), Hrest. simpl.
  rewrite parse_top_flags. reflexivity.
Qed.

(** Without a sub-command the script ends with status 0 under Python 3, and
    a request for help ends with status 0 under either interpreter. *)
Lemma no_subcommand_exit_zero :
  main Python3 example_fs ["build_package.py"] = Some (Ok 0%Z) /\
  script Python3 example_fs ["build_package.py"] = Some 0%Z /\
  both (fun py =>
    main py example_fs ["build_package.py"; "-h"]
      = Some (Raise (SystemExit 0)) /\
    script py example_fs ["build_package.py"; "-h"] = Some 0%Z).
Proof.
  repeat split; reflexivity.
Qed.

(** C7, amended.  After the program name and any [-v]/[--verbose] flags:
    a word other than [binary] makes the script fail with the usage error of
    [argparse], exit status 2; with nothing more on the line the outcome is
    that of [argparse], a usage error with status 2 under Python 2.7 and
    [command = None] under Python 3, for which [main] returns 0; [-h] or
    [--help] ends the script with status 0. *)
Theorem main_without_binary
        (py : python) (fs : filesystem) (prog : string)
        (flags : list string) :
  Forall (fun a => classify a = Some O_verbose) flags ->
  (forall word rest cs,
      classify word = Some (A word) ->
      word <> "binary" ->
      classify_all rest = Some cs ->
      main py fs (prog :: flags ++ word :: rest)
        = Some (Raise (SystemExit 2))) /\
  main py fs (prog :: flags) =
    Some (match py with
          | Python2 => Raise (SystemExit 2)
          | Python3 => Ok 0%Z
          end) /\
  (forall help rest cs,
      classify help = Some O_help ->
      classify_all rest = Some cs ->
      main py fs (prog :: flags ++ help :: rest)
        = Some (Raise (SystemExit 0))).
Proof.
  intros Hflags. split; [| split].
  - intros word rest cs Hword Hne Hrest. unfold main.
    rewrite (get_args_flags py prog flags (word :: rest) (A word :: cs) Hflags)
      by (simpl; rewrite Hword, Hrest; reflexivity).
    simpl. apply String.eqb_neq in Hne. rewrite Hne. reflexivity.
  - unfold main. rewrite <- (app_nil_r flags) at 1.
    rewrite (get_args_flags py prog flags [] [] Hflags) by reflexivity.
    destruct py; reflexivity.
  - intros help rest cs Hhelp Hrest. unfold main.
    rewrite (get_args_flags py prog flags (help :: rest) (O_help :: cs) Hflags)
      by (simpl; rewrite Hhelp, Hrest; reflexivity).
    reflexivity.
Qed.

Lemma main_without_binary_witness :
  (forall word rest cs,
      classify word = Some (A word) ->
      word <> "binary" ->
      classify_all rest = Some cs ->
      main Python3 example_fs ("build_package.py" :: ["-v"] ++ word :: rest)
        = Some (Raise (SystemExit 2))) /\
  main Python3 example_fs ("build_package.py" :: ["-v"]) = Some (Ok 0%Z) /\
  (forall help rest cs,
      classify help = Some O_help ->
      classify_all rest = Some cs ->
      main Python3 example_fs ("build_package.py" :: ["-v"] ++ help :: rest)
        = Some (Raise (SystemExit 0))).
Proof.
  apply (main_without_binary Python3 example_fs "build_package.py" ["-v"]).
  repeat constructor.
Defined.

(** C8.  When the [binary] sub-command is given a control-file path at
    which there is no file, [open] raises its file-not-found exception, which
    nothing catches: it is the exception [main] ends with, and the process
    exits with status 1. *)
Theorem main_binary_missing_file
        (py : python) (fs : filesystem) (argv : list string)
        (verbose : bool) (dsc location : string) :
  get_args py argv = Some (Ok (Namespace_binary verbose dsc location)) ->
  fs dsc = None ->
  main py fs argv = Some (Raise FileNotFoundError) /\
  script py fs argv = Some 1%Z.
Proof.
  intros Hargs Hfs.
  assert (Hmain : main py fs argv = Some (Raise FileNotFoundError)).
  { unfold main. rewrite Hargs. simpl. unfold build_binary.
    rewrite (parse_dsc_missing py fs dsc verbose Hfs). reflexivity. }
  split; [exact Hmain |].
  unfold script. rewrite Hmain. reflexivity.
Qed.

Lemma main_binary_missing_file_witness :
  main Python3 example_fs
       ["build_package.py"; "binary"; "nonexistent.dsc"; "/tmp"]
    = Some (Raise FileNotFoundError) /\
  script Python3 example_fs
         ["build_package.py"; "binary"; "nonexistent.dsc"; "/tmp"]
    = Some 1%Z.
Proof.
  apply (main_binary_missing_file
           Python3 example_fs
           ["build_package.py"; "binary"; "nonexistent.dsc"; "/tmp"]
           false "nonexistent.dsc" "/tmp").
  - reflexivity.
  - reflexivity.
Defined.

(** ** The example of the specification *)

Example parse_dsc_example (py : python) :
  parse_dsc py example_fs "/tmp/pkg/foo.dsc" false =
    Ok [mkSourceFile (PyStr "abcdef0123456789") (PyStr "100")
                     (PyStr "foo.tar.gz") (PyStr "/tmp/pkg/foo.tar.gz");
        mkSourceFile (PyStr "fedcba9876543210") (PyStr "200")
                     (PyStr "foo.dsc") (PyStr "/tmp/pkg/foo.dsc")].
Proof. destruct py; reflexivity. Qed.

Example main_example (py : python) :
  main py example_fs
       ["build_package.py"; "binary"; "/tmp/pkg/foo.dsc"; "/tmp/build"]
    = Some (Ok 0%Z).
Proof. destruct py; reflexivity. Qed.

Example short_row_example (py : python) :
  parse_dsc py (one_file "short.dsc" short_dsc) "short.dsc" false
    = Raise IndexError.
Proof. destruct py; reflexivity. Qed.

Example long_row_example (py : python) :
  row py "/tmp" " 0a 1 foo.tar.gz extra" = Raise TypeError.
Proof. destruct py; reflexivity. Qed.

(** * Further properties of the script *)

(** ** What [split] hands out *)

Lemma split_cons (py : python) (c : ascii) (rest : string) :
  split py (String c rest) =
    if isspace py c then split py rest
    else
      match rest with
      | EmptyString => [String c EmptyString]
      | String d _ =>
          if isspace py d then String c EmptyString :: split py rest
          else
            match split py rest with
            | [] => [String c EmptyString]
            | t :: ts => String c t :: ts
            end
      end.
Proof. reflexivity. Qed.

Lemma split_tokens (py : python) (s : string) :
  Forall (is_token py) (split py s).
Proof.
  induction s as [| c rest IH].
  - constructor.
  - rewrite split_cons.
    destruct (isspace py c) eqn:Hc; [exact IH |].
    assert (Hone : is_token py (String c EmptyString)).
    { split; [discriminate | simpl; rewrite Hc; reflexivity]. }
    destruct rest as [| d r].
    + constructor; [exact Hone | constructor].
    + destruct (isspace py d).
      * constructor; [exact Hone | exact IH].
      * destruct (split py (String d r)) as [| t ts].
        -- constructor; [exact Hone | constructor].
        -- inversion IH as [| ? ? [_ Ht] Hts]; subst.
           constructor; [| exact Hts].
           split; [discriminate | simpl; rewrite Hc, Ht; reflexivity].
Qed.

Lemma split_only_space (py : python) (s : string) :
  only_space py s = true -> split py s = [].
Proof.
  induction s as [| c rest IH]; intros H.
  - reflexivity.
  - simpl in H. apply andb_true_iff in H. destruct H as [Hc Hrest].
    rewrite split_cons, Hc. apply IH. exact Hrest.
Qed.

(** ** The exceptions of the parser *)






(** The first row of the section that [row] rejects decides what
    [parse_dsc] raises. *)
Lemma parse_dsc_first_bad_row (py : python) (fs : filesystem) (p : string)
      (v : bool) (content : string) (pre : list string) (hdr : string)
      (rows : list string) (bad : string) (rest : list string) (e : exn) :
  fs p = Some content ->
  splitlines py content = pre ++ hdr :: rows ++ bad :: rest ->
  Forall (fun l => is_header l = false) pre ->
  is_header hdr = true ->
  Forall (fun r => indented r = true /\ length (split py r) = 3) rows ->
  indented bad = true ->
  row py (dirname p) bad = Raise e ->
  parse_dsc py fs p v = Raise e.
Proof.
  intros Hfs Hlines Hpre Hhdr Hrows Hbad Hrow.
  assert (Hind : Forall (fun r => indented r = true) rows).
  { eapply Forall_impl; [| exact Hrows]. intros r [Hr _]. exact Hr. }
  assert (Hwf : Forall (fun r => length (split py r) = 3) rows).
  { eapply Forall_impl; [| exact Hrows]. intros r [_ Hr]. exact Hr. }
  destruct (entries_wellformed py (dirname p) rows Hwf) as (es & Hes & _).
  rewrite (parse_dsc_read py fs p v content Hfs), Hlines,
    (scan_before_header _ _ _ _ _ Hpre), (scan_at_header _ _ _ _ _ Hhdr),
    (scan_rows _ _ _ _ _ Hind), Hes.
  simpl. unfold indented in Hbad. rewrite Hbad, Hrow. reflexivity.
Qed.

(** X3.  When the rows of the section before a malformed one are well
    formed, the malformed row decides the exception: [IndexError] when it has
    fewer than three tokens, [TypeError] when it has more than three. *)
Theorem parse_dsc_malformed_row_kind
        (py : python) (fs : filesystem) (p : string) (v : bool)
        (content : string) (pre : list string) (hdr : string)
        (rows : list string) (bad : string) (rest : list string) :
  fs p = Some content ->
  splitlines py content = pre ++ hdr :: rows ++ bad :: rest ->
  Forall (fun l => is_header l = false) pre ->
  is_header hdr = true ->
  Forall (fun r => indented r = true /\ length (split py r) = 3) rows ->
  indented bad = true ->
  (length (split py bad) < 3 -> parse_dsc py fs p v = Raise IndexError) /\
  (3 < length (split py bad) -> parse_dsc py fs p v = Raise TypeError).
Proof.
  intros Hfs Hlines Hpre Hhdr Hrows Hbad. split; intros Hlen.
  - apply (parse_dsc_first_bad_row py fs p v content pre hdr rows bad rest);
      try assumption.
    apply row_too_few. exact Hlen.
  - apply (parse_dsc_first_bad_row py fs p v content pre hdr rows bad rest);
      try assumption.
    apply row_too_many. exact Hlen.
Qed.

Lemma parse_dsc_malformed_row_kind_witness :
  (length (split Python3 " abc123 1024") < 3 ->
   parse_dsc Python3 (one_file "short.dsc" short_dsc) "short.dsc" false
     = Raise IndexError) /\
  (3 < length (split Python3 " abc123 1024") ->
   parse_dsc Python3 (one_file "short.dsc" short_dsc) "short.dsc" false
     = Raise TypeError).
Proof.
  apply (parse_dsc_malformed_row_kind
           Python3 (one_file "short.dsc" short_dsc) "short.dsc" false
           short_dsc [] "Checksums-Sha256:" [" 0a 1 foo.tar.gz"]
           " abc123 1024" []).
  - reflexivity.
  - reflexivity.
  - constructor.
  - reflexivity.
  - repeat constructor.
  - reflexivity.
Defined.

(** X4.  A line of the section that starts with a space and holds nothing
    but whitespace is not skipped: after well-formed rows it makes
    [parse_dsc] raise [IndexError]. *)
Theorem parse_dsc_blank_row
        (py : python) (fs : filesystem) (p : string) (v : bool)
        (content : string) (pre : list string) (hdr : string)
        (rows : list string) (blank : string) (rest : list string) :
  fs p = Some content ->
  splitlines py content = pre ++ hdr :: rows ++ blank :: rest ->
  Forall (fun l => is_header l = false) pre ->
  is_header hdr = true ->
  Forall (fun r => indented r = true /\ length (split py r) = 3) rows ->
  indented blank = true ->
  only_space py blank = true ->
  parse_dsc py fs p v = Raise IndexError.
Proof.
  intros Hfs Hlines Hpre Hhdr Hrows Hind Hblank.
  apply (parse_dsc_first_bad_row py fs p v content pre hdr rows blank rest);
    try assumption.
  apply row_too_few. rewrite (split_only_space py blank Hblank). simpl. lia.
Qed.

Lemma parse_dsc_blank_row_witness :
  parse_dsc Python3 (one_file "blank.dsc" blank_row_dsc) "blank.dsc" false
    = Raise IndexError.
Proof.
  apply (parse_dsc_blank_row
           Python3 (one_file "blank.dsc" blank_row_dsc) "blank.dsc" false
           blank_row_dsc [] "Checksums-Sha256:" [" 0a 1 foo.tar.gz"]
           "  " [" 0b 2 foo.dsc"]).
  - reflexivity.
  - reflexivity.
  - constructor.
  - reflexivity.
  - repeat constructor.
  - reflexivity.
  - reflexivity.
Defined.

(** X5.  In every entry that [parse_dsc] returns, [sha256], [size] and
    [name] are non-empty texts without any whitespace character. *)
Theorem parse_dsc_fields_are_tokens
        (py : python) (fs : filesystem) (p : string) (v : bool)
        (files : list SourceFile) (e : SourceFile) :
  parse_dsc py fs p v = Ok files ->
  In e files ->
  exists a b c,
    sha256 e = PyStr a /\ size e = PyStr b /\ name e = PyStr c /\
    is_token py a /\ is_token py b /\ is_token py c.
Proof.
  intros H Hin.
  destruct (parse_dsc_entry py fs p v files e H Hin)
    as (content & line & a & b & c & _ & _ & Hs & ->).
  pose proof (split_tokens py line) as Htok. rewrite Hs in Htok.
  inversion Htok as [| ? ? Ha Htok1]; subst.
  inversion Htok1 as [| ? ? Hb Htok2]; subst.
  inversion Htok2 as [| ? ? Hc _]; subst.
  exists a, b, c. repeat split; solve [reflexivity | apply Ha | apply Hb | apply Hc].
Qed.

Lemma parse_dsc_fields_are_tokens_witness :
  exists a b c,
    sha256 (mkSourceFile (PyStr "abcdef0123456789") (PyStr "100")
                         (PyStr "foo.tar.gz") (PyStr "/tmp/pkg/foo.tar.gz"))
      = PyStr a /\
    size (mkSourceFile (PyStr "abcdef0123456789") (PyStr "100")
                       (PyStr "foo.tar.gz") (PyStr "/tmp/pkg/foo.tar.gz"))
      = PyStr b /\
    name (mkSourceFile (PyStr "abcdef0123456789") (PyStr "100")
                       (PyStr "foo.tar.gz") (PyStr "/tmp/pkg/foo.tar.gz"))
      = PyStr c /\
    is_token Python3 a /\ is_token Python3 b /\ is_token Python3 c.
Proof.
  eapply (parse_dsc_fields_are_tokens
            Python3 example_fs "/tmp/pkg/foo.dsc" false).
  - reflexivity.
  - left. reflexivity.
Defined.

(** ** Where the files of the table are looked for *)

Lemma upto_last_sep_no_sep (p : string) :
  has_sep p = false -> upto_last_sep p = EmptyString.
Proof.
  destruct p as [| c r]; simpl; intros H.
  - reflexivity.
  - rewrite H. reflexivity.
Qed.

Lemma dirname_no_sep (p : string) :
  has_sep p = false -> dirname p = EmptyString.
Proof.
  intros H. unfold dirname. rewrite (upto_last_sep_no_sep p H). reflexivity.
Qed.

Lemma join_empty (b : string) : join EmptyString b = b.
Proof.
  unfold join. destruct (startswith b "/"); reflexivity.
Qed.

Lemma join_absolute (a b : string) :
  startswith b "/" = true -> join a b = b.
Proof.
  intros H. unfold join. rewrite H. reflexivity.
Qed.

Lemma upto_last_sep_app (d f : string) :
  has_sep f = false ->
  upto_last_sep (d ++ String "/" f)%string = (d ++ "/")%string.
Proof.
  intros Hf. induction d as [| c d IH].
  - simpl. rewrite (upto_last_sep_no_sep f Hf). reflexivity.
  - change ((String c d ++ String "/" f)%string)
      with (String c (d ++ String "/" f)).
    cbn [upto_last_sep has_sep]. rewrite has_sep_app. cbn [has_sep is_sep].
    replace (Ascii.eqb "/" "/") with true by reflexivity.
    rewrite orb_true_l, !orb_true_r, IH. reflexivity.
Qed.

Lemma all_sep_app_false (d : string) :
  d <> EmptyString -> endswith_sep d = false ->
  all_sep (d ++ "/")%string = false.
Proof.
  induction d as [| c d IH]; intros Hne Hend.
  - contradiction Hne. reflexivity.
  - destruct d as [| c' d'].
    + simpl in Hend. simpl. rewrite Hend. reflexivity.
    + change (endswith_sep (String c (String c' d')))
        with (endswith_sep (String c' d')) in Hend.
      change ((String c (String c' d') ++ "/")%string)
        with (String c (String c' d' ++ "/")).
      cbn [all_sep]. rewrite IH; [apply andb_false_r | discriminate | exact Hend].
Qed.

Lemma rstrip_sep_app (d : string) :
  endswith_sep d = false -> rstrip_sep (d ++ "/")%string = d.
Proof.
  induction d as [| c d IH]; intros Hend.
  - reflexivity.
  - change ((String c d ++ "/")%string) with (String c (d ++ "/")).
    cbn [rstrip_sep].
    destruct d as [| c' d'].
    + simpl in Hend. simpl. rewrite Hend. reflexivity.
    + rewrite IH; [reflexivity | exact Hend].
Qed.

Lemma dirname_app (d f : string) :
  d <> EmptyString -> endswith_sep d = false -> has_sep f = false ->
  dirname (d ++ String "/" f)%string = d.
Proof.
  intros Hne Hend Hf. unfold dirname.
  rewrite (upto_last_sep_app d f Hf), (all_sep_app_false d Hne Hend).
  destruct d as [| c d']; [contradiction Hne; reflexivity |].
  cbn [String.eqb append negb andb].
  apply (rstrip_sep_app (String c d') Hend).
Qed.

(** X6.  When the control-file path has no directory part, the [path] of
    every returned entry is the entry's [name] unchanged. *)
Theorem parse_dsc_path_in_cwd
        (py : python) (fs : filesystem) (p : string) (v : bool)
        (files : list SourceFile) (e : SourceFile) :
  has_sep p = false ->
  parse_dsc py fs p v = Ok files ->
  In e files ->
  path e = name e.
Proof.
  intros Hp H Hin.
  destruct (parse_dsc_entry py fs p v files e H Hin)
    as (content & line & a & b & c & _ & _ & _ & ->).
  simpl. rewrite (dirname_no_sep p Hp), join_empty. reflexivity.
Qed.

Lemma parse_dsc_path_in_cwd_witness :
  path (mkSourceFile (PyStr "0a") (PyStr "1") (PyStr "foo.tar.gz")
                     (PyStr "foo.tar.gz"))
  = name (mkSourceFile (PyStr "0a") (PyStr "1") (PyStr "foo.tar.gz")
                       (PyStr "foo.tar.gz")).
Proof.
  eapply (parse_dsc_path_in_cwd
            Python3 (one_file "twice.dsc" twice_dsc) "twice.dsc" false).
  - reflexivity.
  - reflexivity.
  - left. reflexivity.
Defined.

(** X7.  A file name of the table that starts with [/] is taken as it
    stands: the [path] of its entry is the [name], whatever the directory of
    the control file. *)
Theorem parse_dsc_absolute_name
        (py : python) (fs : filesystem) (p : string) (v : bool)
        (files : list SourceFile) (e : SourceFile) (n : string) :
  parse_dsc py fs p v = Ok files ->
  In e files ->
  name e = PyStr n ->
  startswith n "/" = true ->
  path e = PyStr n.
Proof.
  intros H Hin Hname Habs.
  destruct (parse_dsc_entry py fs p v files e H Hin)
    as (content & line & a & b & c & _ & _ & _ & ->).
  simpl in Hname. injection Hname as ->.
  simpl. rewrite (join_absolute (dirname p) n Habs). reflexivity.
Qed.

Lemma parse_dsc_absolute_name_witness :
  path (mkSourceFile (PyStr "0b") (PyStr "2") (PyStr "/abs/foo.dsc")
                     (PyStr "/abs/foo.dsc"))
  = PyStr "/abs/foo.dsc".
Proof.
  eapply (parse_dsc_absolute_name
            Python3 (one_file "/tmp/pkg/foo.dsc" nested_dsc)
            "/tmp/pkg/foo.dsc" false).
  - reflexivity.
  - right. left. reflexivity.
  - reflexivity.
  - reflexivity.
Defined.

(** X8.  For a control file [d/f] ([d] not empty and not ending in [/],
    [f] without [/]) an entry whose [name] does not start with [/] has the
    [path] [d/name]. *)
Theorem parse_dsc_relative_name
        (py : python) (fs : filesystem) (d f : string) (v : bool)
        (files : list SourceFile) (e : SourceFile) (n : string) :
  d <> EmptyString ->
  endswith_sep d = false ->
  has_sep f = false ->
  parse_dsc py fs (d ++ String "/" f)%string v = Ok files ->
  In e files ->
  name e = PyStr n ->
  startswith n "/" = false ->
  path e = PyStr (d ++ String "/" n)%string.
Proof.
  intros Hne Hend Hf H Hin Hname Hrel.
  destruct (parse_dsc_entry py fs _ v files e H Hin)
    as (content & line & a & b & c & _ & _ & _ & ->).
  simpl in Hname. injection Hname as ->.
  simpl. rewrite (dirname_app d f Hne Hend Hf).
  unfold join. rewrite Hrel, Hend, orb_false_r.
  destruct d as [| c d']; [contradiction Hne; reflexivity |].
  reflexivity.
Qed.

Lemma parse_dsc_relative_name_witness :
  path (mkSourceFile (PyStr "0a") (PyStr "1") (PyStr "sub/foo.tar.gz")
                     (PyStr "/tmp/pkg/sub/foo.tar.gz"))
  = PyStr ("/tmp/pkg" ++ String "/" "sub/foo.tar.gz")%string.
Proof.
  eapply (parse_dsc_relative_name
            Python3 (one_file "/tmp/pkg/foo.dsc" nested_dsc)
            "/tmp/pkg" "foo.dsc" false).
  - discriminate.
  - reflexivity.
  - reflexivity.
  - reflexivity.
  - left. reflexivity.
  - reflexivity.
  - reflexivity.
Defined.

(** ** The [binary] sub-command *)

Lemma classify_all_words (ws : list string) :
  Forall is_word ws -> classify_all ws = Some (map A ws).
Proof.
  induction 1 as [| w ws Hw _ IH]; simpl.
  - reflexivity.
  - unfold is_word in Hw. rewrite Hw, IH. reflexivity.
Qed.

Lemma no_help_in_words (ws : list string) : existsb is_help (map A ws) = false.
Proof.
  induction ws as [| w ws IH]; simpl; [reflexivity | exact IH].
Qed.

Lemma get_args_binary_words (py : python) (prog : string)
      (flags ws : list string) :
  Forall (fun a => classify a = Some O_verbose) flags ->
  Forall is_word ws ->
  get_args py (prog :: flags ++ "binary" :: ws) =
    Some (parse_binary (match flags with [] => false | _ => true end)
                       (map A ws)).
Proof.
  intros Hflags Hws.
  rewrite (get_args_flags py prog flags ("binary" :: ws)
             (A "binary" :: map A ws) Hflags).
  - reflexivity.
  - simpl. rewrite (classify_all_words ws Hws). reflexivity.
Qed.



(** X9.  [get_args] on [prog [-v|--verbose]... binary dsc location]: the
    two words after [binary] become [dsc] and [location], in this order, and
    [verbose] is set exactly when at least one flag was given. *)
Theorem get_args_binary
        (py : python) (prog : string) (flags : list string)
        (d l : string) :
  Forall (fun a => classify a = Some O_verbose) flags ->
  is_word d ->
  is_word l ->
  get_args py (prog :: flags ++ ["binary"; d; l]) =
    Some (Ok (Namespace_binary (match flags with [] => false | _ => true end)
                               d l)).
Proof.
  intros Hflags Hd Hl.
  rewrite (get_args_binary_words py prog flags [d; l] Hflags)
    by (repeat constructor; assumption).
  reflexivity.
Qed.

Lemma get_args_binary_witness :
  get_args Python3
           ("build_package.py" :: ["-v"] ++ ["binary"; "foo.dsc"; "/tmp/build"])
  = Some (Ok (Namespace_binary true "foo.dsc" "/tmp/build")).
Proof.
  apply (get_args_binary Python3 "build_package.py" ["-v"]
                         "foo.dsc" "/tmp/build").
  - repeat constructor.
  - reflexivity.
  - reflexivity.
Defined.

(** X10.  [binary] takes exactly two positional arguments: followed by any
    other number of words, the command line is refused with the usage error,
    exit status 2, under either interpreter. *)
Theorem get_args_binary_arity
        (py : python) (prog : string) (flags ws : list string) :
  Forall (fun a => classify a = Some O_verbose) flags ->
  Forall is_word ws ->
  length ws <> 2 ->
  get_args py (prog :: flags ++ "binary" :: ws) = Some (Raise (SystemExit 2)).
Proof.
  intros Hflags Hws Hlen.
  rewrite (get_args_binary_words py prog flags ws Hflags Hws).
  unfold parse_binary. rewrite no_help_in_words.
  destruct ws as [| a [| b [| c ws']]]; try reflexivity.
  contradiction Hlen. reflexivity.
Qed.

Lemma get_args_binary_arity_witness :
  get_args Python2 ("build_package.py" :: [] ++ "binary" :: ["foo.dsc"])
  = Some (Raise (SystemExit 2)).
Proof.
  apply (get_args_binary_arity Python2 "build_package.py" [] ["foo.dsc"]).
  - constructor.
  - repeat constructor.
  - simpl. lia.
Defined.

(** ** How the script ends *)



(** X12.  Neither the program name, nor the [-v]/[--verbose] flags, nor the
    [location] argument has any effect on what [main] does for [binary]:
    two command lines with the same [dsc] end the same way. *)
Theorem main_binary_ignores_location_and_verbose
        (py : python) (fs : filesystem)
        (prog prog' : string) (flags flags' : list string)
        (d l l' : string) :
  Forall (fun a => classify a = Some O_verbose) flags ->
  Forall (fun a => classify a = Some O_verbose) flags' ->
  is_word d -> is_word l -> is_word l' ->
  main py fs (prog :: flags ++ ["binary"; d; l]) =
  main py fs (prog' :: flags' ++ ["binary"; d; l']).
Proof.
  intros Hflags Hflags' Hd Hl Hl'. unfold main.
  rewrite (get_args_binary_words py prog flags [d; l] Hflags)
    by (repeat constructor; assumption).
  rewrite (get_args_binary_words py prog' flags' [d; l'] Hflags')
    by (repeat constructor; assumption).
  reflexivity.
Qed.

Lemma main_binary_ignores_location_and_verbose_witness :
  main Python3 example_fs
       ("build_package.py" :: ["-v"] ++ ["binary"; "/tmp/pkg/foo.dsc"; "/tmp"])
  = main Python3 example_fs
         ("bp" :: [] ++ ["binary"; "/tmp/pkg/foo.dsc"; "/srv/build"]).
Proof.
  apply (main_binary_ignores_location_and_verbose
           Python3 example_fs "build_package.py" "bp" ["-v"] []
           "/tmp/pkg/foo.dsc" "/tmp" "/srv/build").
  - repeat constructor.
  - constructor.
  - reflexivity.
  - reflexivity.
  - reflexivity.
Defined.

(** X13.  For a [binary] command line, [main] returns 0 exactly when
    [parse_dsc] returns a list for the given control file, whatever the
    list; and whatever [parse_dsc] raises, [main] raises too. *)
Theorem main_binary_follows_parse_dsc
        (py : python) (fs : filesystem) (argv : list string)
        (verbose : bool) (dsc location : string) :
  get_args py argv = Some (Ok (Namespace_binary verbose dsc location)) ->
  (main py fs argv = Some (Ok 0%Z) <->
   exists files, parse_dsc py fs dsc verbose = Ok files) /\
  (forall e, parse_dsc py fs dsc verbose = Raise e ->
             main py fs argv = Some (Raise e)).
Proof.
  intros Hargs. unfold main. rewrite Hargs. simpl. unfold build_binary.
  destruct (parse_dsc py fs dsc verbose) as [files | e']; simpl.
  - split.
    + split; [intros _; exists files; reflexivity | reflexivity].
    + intros e H. discriminate H.
  - split.
    + split; [intros H; discriminate H | intros [files H]; discriminate H].
    + intros e H. injection H as <-. reflexivity.
Qed.

Lemma main_binary_follows_parse_dsc_witness :
  (main Python3 example_fs
        ["build_package.py"; "binary"; "/tmp/pkg/foo.dsc"; "/tmp/build"]
     = Some (Ok 0%Z) <->
   exists files,
     parse_dsc Python3 example_fs "/tmp/pkg/foo.dsc" false = Ok files) /\
  (forall e,
      parse_dsc Python3 example_fs "/tmp/pkg/foo.dsc" false = Raise e ->
      main Python3 example_fs
           ["build_package.py"; "binary"; "/tmp/pkg/foo.dsc"; "/tmp/build"]
        = Some (Raise e)).
Proof.
  apply (main_binary_follows_parse_dsc
           Python3 example_fs
           ["build_package.py"; "binary"; "/tmp/pkg/foo.dsc"; "/tmp/build"]
           false "/tmp/pkg/foo.dsc" "/tmp/build").
  reflexivity.
Defined.

(** ** Where the entries come from *)

Lemma scan_Ok_indented (py : python) (there : string) (lines : list string)
      (found : bool) (files out : list SourceFile) :
  scan py there found files lines = Ok out ->
  exists news,
    out = files ++ news /\
    length news <= length (filter indented lines) /\
    Forall (fun e => exists line,
                In line lines /\ indented line = true /\
                row py there line = Ok e) news.
Proof.
  revert found files.
  induction lines as [| l ls IH]; intros found files H; simpl in H.
  - injection H as <-. exists []. rewrite app_nil_r.
    repeat split; [apply Nat.le_refl | constructor].
  - destruct (found && startswith l " ") eqn:Hrow.
    + apply andb_true_iff in Hrow. destruct Hrow as [_ Hind].
      apply bind_Ok_inv in H. destruct H as (f & Hf & H).
      apply IH in H. destruct H as (news & -> & Hlen & Hall).
      exists (f :: news). rewrite <- app_assoc.
      split; [reflexivity | split].
      * simpl. unfold indented at 1. rewrite Hind. simpl. lia.
      * constructor.
        -- exists l. repeat split; [left; reflexivity | exact Hind | exact Hf].
        -- eapply Forall_impl; [| exact Hall].
           intros e (line & Hin & Hi & He). exists line.
           repeat split; [right; exact Hin | exact Hi | exact He].
    + destruct found.
      * injection H as <-. exists []. rewrite app_nil_r.
        repeat split; [apply Nat.le_0_l | constructor].
      * apply IH in H. destruct H as (news & -> & Hlen & Hall).
        exists news. split; [reflexivity | split].
        -- simpl. destruct (indented l); simpl; lia.
        -- eapply Forall_impl; [| exact Hall].
           intros e (line & Hin & Hi & He). exists line.
           repeat split; [right; exact Hin | exact Hi | exact He].
Qed.

(** X14.  Every entry that [parse_dsc] returns was read from a line of the
    file that starts with a space and has exactly three tokens, and there
    are at most as many entries as the file has lines starting with a
    space. *)
Theorem parse_dsc_entries_from_indented_lines
        (py : python) (fs : filesystem) (p : string) (v : bool)
        (files : list SourceFile) :
  parse_dsc py fs p v = Ok files ->
  exists content,
    fs p = Some content /\
    length files <= length (filter indented (splitlines py content)) /\
    Forall (fun e => exists line,
                In line (splitlines py content) /\
                indented line = true /\
                length (split py line) = 3 /\
                row py (dirname p) line = Ok e) files.
Proof.
  intros H. destruct (fs p) as [content |] eqn:Hfs.
  - rewrite (parse_dsc_read py fs p v content Hfs) in H.
    apply scan_Ok_indented in H. destruct H as (news & -> & Hlen & Hall).
    exists content. repeat split; [exact Hlen |].
    eapply Forall_impl; [| exact Hall].
    intros e (line & Hin & Hi & He). exists line.
    repeat split; try assumption.
    eapply row_Ok_length. exact He.
  - rewrite (parse_dsc_missing py fs p v Hfs) in H. discriminate H.
Qed.

Lemma parse_dsc_entries_from_indented_lines_witness :
  exists content,
    one_file "twice.dsc" twice_dsc "twice.dsc" = Some content /\
    length [mkSourceFile (PyStr "0a") (PyStr "1") (PyStr "foo.tar.gz")
                         (PyStr "foo.tar.gz")]
      <= length (filter indented (splitlines Python3 content)) /\
    Forall (fun e => exists line,
                In line (splitlines Python3 content) /\
                indented line = true /\
                length (split Python3 line) = 3 /\
                row Python3 (dirname "twice.dsc") line = Ok e)
           [mkSourceFile (PyStr "0a") (PyStr "1") (PyStr "foo.tar.gz")
                         (PyStr "foo.tar.gz")].
Proof.
  apply (parse_dsc_entries_from_indented_lines
           Python3 (one_file "twice.dsc" twice_dsc) "twice.dsc" false).
  reflexivity.
Defined.
